(** * Kenya car import cost calculator: a shallow embedding

    This development embeds the logic of [car_import_calculator.py] and
    states its properties:

    - the header normalisation of [load_crsp_file] and the look-up of
      [search_crsp] over a loaded reference table;
    - the age gate of [calculate_customs_duty], the excise tiers of
      [calculate_excise_duty], the dependent taxes and the aggregation of
      [calculate_total_costs];
    - the helpers [extract_engine_size] and [estimate_car_value], and the
      text extraction of [scrape_car_details];
    - the page code that computes: [compare_with_local_market],
      [display_cost_breakdown], and the calculate button and the side-bar
      search of [main].

    Modelling conventions.

    - Text is [string] over 7-bit ASCII characters: [str.upper] maps the
      letters a-z, and white space is the ASCII white space of
      [str.isspace] (code points 9-13, 28-31 and 32).
    - Numbers are exact rationals [Q]: a decimal literal of the program
      denotes its decimal value and [+], [*] are exact.  The binary64
      rounding of Python's [float] is not part of the model.  What the
      program keeps as an [int] ([vehicle_age], the flat fees, the exchange
      rate) is a [Z], injected into [Q] where the program mixes it with
      other numbers.
    - A function that returns a tuple returns a pair, [None] is [None], a
      raised exception is an explicit outcome. *)

From Stdlib Require Import ZArith QArith Lqa String Ascii List Bool Lia.
From Stdlib Require Import Qpower.
From stdpp Require Import gmap strings.
Import ListNotations.

Local Open Scope string_scope.

(** ** Python text primitives *)

(** [str.isspace] on one ASCII character. *)
Definition is_space (c : ascii) : bool :=
  let n := nat_of_ascii c in
  ((9 <=? n)%nat && (n <=? 13)%nat) || ((28 <=? n)%nat && (n <=? 32)%nat).

(** [str.upper] on one ASCII character. *)
Definition upper_char (c : ascii) : ascii :=
  let n := nat_of_ascii c in
  if ((97 <=? n)%nat && (n <=? 122)%nat)%bool then ascii_of_nat (n - 32) else c.

(** [s.upper()] *)
Fixpoint upper (s : string) : string :=
  match s with
  | EmptyString => EmptyString
  | String c s' => String (upper_char c) (upper s')
  end.

(** [s.lstrip()] *)
Fixpoint lstrip (s : string) : string :=
  match s with
  | EmptyString => EmptyString
  | String c s' => if is_space c then lstrip s' else s
  end.

(** [s.rstrip()] *)
Fixpoint rstrip (s : string) : string :=
  match s with
  | EmptyString => EmptyString
  | String c s' =>
      match rstrip s' with
      | EmptyString => if is_space c then EmptyString else String c EmptyString
      | t => String c t
      end
  end.

(** [s.strip()] *)
Definition strip (s : string) : string := rstrip (lstrip s).

(** The double quote character, code point 34. *)
Definition dquote : ascii := ascii_of_nat 34.

(** [s.replace(q, '')] for the one-character string [q] that holds a double
    quote: every double quote is dropped. *)
Fixpoint remove_quotes (s : string) : string :=
  match s with
  | EmptyString => EmptyString
  | String c s' =>
      if Ascii.eqb c dquote then remove_quotes s' else String c (remove_quotes s')
  end.

(** [re.sub(r'\s+', ' ', s)]: every maximal run of white space becomes one
    space.  [in_run] tells that the previous character was white space. *)
Fixpoint collapse_ws (in_run : bool) (s : string) : string :=
  match s with
  | EmptyString => EmptyString
  | String c s' =>
      if is_space c
      then (if in_run then collapse_ws true s' else String " " (collapse_ws true s'))
      else String c (collapse_ws false s')
  end.

(** [pat in s]: [pat] occurs in [s] as a contiguous substring. *)
Fixpoint contains (pat s : string) : bool :=
  String.prefix pat s ||
  match s with
  | EmptyString => false
  | String _ s' => contains pat s'
  end.

(** What the specification calls substring containment: [s] splits into a
    left part, [pat] and a right part. *)
Definition is_substring (pat s : string) : Prop :=
  exists l r : string, s = l ++ pat ++ r.

(** ** Regular expressions, as far as [str.contains] needs them

    pandas' [Series.str.contains(pat)] is called with its default
    [regex=True]: [pat] is a regular expression handed to [re.search].
    The fragment modelled here has ordinary characters, which match
    themselves, and the dot, which matches any character but a newline.  A
    pattern with another special character is outside the fragment. *)

Definition is_dot (c : ascii) : bool := Ascii.eqb c ".".

(** The special characters of Python's [re] syntax other than the dot. *)
Definition is_special (c : ascii) : bool :=
  existsb (Ascii.eqb c)
    ["^"; "$"; "*"; "+"; "?"; "{"; "}"; "["; "]"; "\"; "|"; "("; ")"]%char.

(** Every character of [pat] is ordinary or a dot. *)
Fixpoint in_fragment (pat : string) : bool :=
  match pat with
  | EmptyString => true
  | String c pat' => negb (is_special c) && in_fragment pat'
  end.


Definition newline : ascii := ascii_of_nat 10.

(** One pattern character against one text character. *)
Definition re_char (p c : ascii) : bool :=
  if is_dot p then negb (Ascii.eqb c newline) else Ascii.eqb p c.

(** [re.match(pat, s)]: the pattern matches at the start of [s]. *)
Fixpoint re_match (pat s : string) : bool :=
  match pat, s with
  | EmptyString, _ => true
  | String _ _, EmptyString => false
  | String p pat', String c s' => re_char p c && re_match pat' s'
  end.

(** [re.search(pat, s) is not None] for a pattern of the fragment. *)
Fixpoint re_search (pat s : string) : bool :=
  re_match pat s ||
  match s with
  | EmptyString => false
  | String _ s' => re_search pat s'
  end.

(** ** Outcomes of a call *)

(** The exceptions the modelled code can raise. *)
Inductive exn : Type :=
| KeyError (label : string)        (* no column of that label *)
| AttributeError.                  (* [.str] on what is not a text column *)

(** A call returns a value, raises, or leaves the modelled fragment of
    regular expressions ([pat] is then handed to Python's [re] as it is). *)
Inductive outcome (A : Type) : Type :=
| Returns (a : A)
| Raises (e : exn)
| BeyondFragment (pat : string).

Arguments Returns {A} a.
Arguments Raises {A} e.
Arguments BeyondFragment {A} pat.

Definition bind {A B : Type} (m : outcome A) (k : A -> outcome B) : outcome B :=
  match m with
  | Returns a => k a
  | Raises e => Raises e
  | BeyondFragment p => BeyondFragment p
  end.

Notation "'let*' x ':=' m 'in' k" := (bind m (fun x => k))
  (at level 10, x name, m at level 100, k at level 200, only parsing).

(** ** The reference table, as pandas holds it *)

(** A cell of a text column: a string, or missing (NaN, an empty cell). *)
Inductive cell : Type :=
| Text (s : string)
| Missing.

(** A data frame: the column labels in order, and the rows in order, each with
    one cell per column (a short row reads as [Missing] past its end). *)
Record DataFrame : Type := mkDataFrame {
  columns : list string;
  records : list (list cell)
}.

(** The positions of the columns labelled [label], in column order. *)
Fixpoint positions (label : string) (cols : list string) (i : nat) : list nat :=
  match cols with
  | [] => []
  | c :: cols' =>
      if String.eqb c label then i :: positions label cols' (S i)
      else positions label cols' (S i)
  end.

(** The column at position [i], top to bottom. *)
Definition column_at (i : nat) (rows : list (list cell)) : list cell :=
  map (fun r => nth i r Missing) rows.

(** [df[label].str]: the one column of that label, as a text column.  No such
    column is a [KeyError]; several give a frame, which has no [.str]. *)
Definition getitem_str (df : DataFrame) (label : string) : outcome (list cell) :=
  match positions label (columns df) 0 with
  | [] => Raises (KeyError label)
  | [i] => Returns (column_at i (records df))
  | _ :: _ :: _ => Raises AttributeError
  end.

(** [.str.upper()] on a text column. *)
Definition str_upper (col : list cell) : list cell :=
  map (fun c => match c with Text s => Text (upper s) | Missing => Missing end) col.

(** One cell of [.str.contains(pat, na=False)]: a missing cell is [False]. *)
Definition cell_contains (pat : string) (c : cell) : bool :=
  match c with
  | Text s => re_search pat s
  | Missing => false
  end.

(** [.str.contains(pat, na=False)] on a text column: the pattern is compiled
    first, then searched in every cell. *)
Definition str_contains (pat : string) (col : list cell) : outcome (list bool) :=
  if in_fragment pat then Returns (map (cell_contains pat) col)
  else BeyondFragment pat.

(** [mask1 & mask2] on two boolean columns of one frame. *)
Fixpoint mask_and (m1 m2 : list bool) : list bool :=
  match m1, m2 with
  | b1 :: m1', b2 :: m2' => (b1 && b2) :: mask_and m1' m2'
  | _, _ => []
  end.

(** [df[mask]]: the rows whose mask entry is [True], in row order. *)
Fixpoint boolean_index (rows : list (list cell)) (mask : list bool)
  : list (list cell) :=
  match rows, mask with
  | r :: rows', b :: mask' =>
      if b then r :: boolean_index rows' mask' else boolean_index rows' mask'
  | _, _ => []
  end.

(** ** [load_crsp_file] *)

(** The header clean-up of line 72:
    [.str.strip().str.replace(q, '').str.replace(r'\s+', ' ', regex=True).str.upper()] *)
Definition normalize_header (h : string) : string :=
  upper (collapse_ws false (remove_quotes (strip h))).

(** One step of the loop that builds [column_mapping] (lines 84-88). *)
Definition mapping_step (m : gmap string string) (col : string) : gmap string string :=
  if String.eqb (upper col) "MAKE" then <[col := "MAKE"]> m
  else if String.eqb (upper col) "MODEL" && negb (contains "NUMBER" (upper col))
       then <[col := "MODEL"]> m
       else m.

(** [df.rename(columns=column_mapping)] on the labels. *)
Definition rename_columns (m : gmap string string) (cols : list string) : list string :=
  map (fun col => default col (m !! col)) cols.

(** [load_crsp_file(df)]: [None] is the refusal of line 94. *)
Definition load_crsp_file (df : DataFrame) : option DataFrame :=
  let cols := map normalize_header (columns df) in
  let has_make := existsb (fun col => contains "MAKE" (upper col)) cols in
  let has_model :=
    existsb (fun col => contains "MODEL" (upper col)
                        && negb (contains "NUMBER" (upper col))) cols in
  if has_make && has_model then
    let column_mapping := fold_left mapping_step cols ∅ in
    Some (mkDataFrame (rename_columns column_mapping cols) (records df))
  else None.

(** ** [search_crsp] *)

(** [search_crsp(make, model, crsp_data)]; the returned records are the rows
    of the frame, read against its columns. *)
Definition search_crsp (make model : string) (crsp_data : option DataFrame)
  : outcome (list (list cell)) :=
  match crsp_data with
  | None => Returns []
  | Some df =>
      let make := strip (upper make) in
      let model := strip (upper model) in
      let* makes := getitem_str df "MAKE" in
      let* mask1 := str_contains make (str_upper makes) in
      let* models := getitem_str df "MODEL" in
      let* mask2 := str_contains model (str_upper models) in
      Returns (boolean_index (records df) (mask_and mask1 mask2))
  end.

(** ** The duty stack *)

Local Open Scope Q_scope.

(** Python's truth value of [warning]: [None] and the empty string are false. *)
Definition truthy (warning : option string) : bool :=
  match warning with
  | None => false
  | Some s => negb (String.eqb s "")
  end.

Definition over_age_warning : string :=
  " Vehicles over 8 years old cannot be imported into Kenya".

Definition general_age_warning : string :=
  " Only vehicles 3 years old or newer can be imported".

(** [calculate_customs_duty(cif_value, vehicle_age)] *)
Definition calculate_customs_duty (cif_value : Q) (vehicle_age : Z)
  : Q * option string :=
  if (vehicle_age >? 8)%Z then (0, Some over_age_warning)
  else if (vehicle_age <=? 7)%Z then (cif_value * 0.25, None)
  else (0, Some general_age_warning).

(** [calculate_excise_duty(cif_value, engine_size)]: the duty and the rate in
    percent. *)
Definition calculate_excise_duty (cif_value engine_size : Q) : Q * Q :=
  let rate :=
    if Qle_bool engine_size 1.5 then 0.20
    else if Qle_bool engine_size 2.0 then 0.25
    else if Qle_bool engine_size 2.5 then 0.30
    else 0.35 in
  (cif_value * rate, rate * 100).

(** [calculate_vat(cif_value, customs_duty, excise_duty)] *)
Definition calculate_vat (cif_value customs_duty excise_duty : Q) : Q :=
  let taxable_value := cif_value + customs_duty + excise_duty in
  taxable_value * 0.16.

(** [calculate_idf(cif_value, customs_duty)] *)
Definition calculate_idf (cif_value customs_duty : Q) : Q :=
  (cif_value + customs_duty) * 0.0225.

(** [calculate_rail_levy(cif_value)] *)
Definition calculate_rail_levy (cif_value : Q) : Q :=
  cif_value * 0.02.

(** The dictionary [calculate_total_costs] returns, one field per key. *)
Record CostBreakdown : Type := mkCostBreakdown {
  fob_value : Q;
  freight_cost : Q;
  insurance_cost : Q;
  cif_value : Q;
  customs_duty : Q;
  excise_duty : Q;
  excise_rate : Q;
  vat : Q;
  idf : Q;
  rail_levy : Q;
  total_statutory_taxes : Q;
  clearing_agent_fee : Z;
  transport_to_nairobi : Z;
  port_charges : Z;
  inspection_fee : Z;
  number_plate : Z;
  total_other_fees : Z;
  grand_total_kes : Q;
  exchange_rate : Z
}.

(** *** The steps a call executes

    [calculate_total_costs] is a sequence of calls and a final block.  To
    speak of the steps that run, the embedding logs each one, in program
    order, next to the value it computes. *)

Inductive step : Type :=
| CustomsDutyStep      (* line 254: calculate_customs_duty *)
| ExciseDutyStep       (* line 258: calculate_excise_duty *)
| VatStep              (* line 259: calculate_vat *)
| IdfStep              (* line 260: calculate_idf *)
| RailLevyStep         (* line 261: calculate_rail_levy *)
| FeeAggregationStep.  (* lines 263-279: fees, totals and conversion *)

(** A value with the log of the steps that produced it. *)
Definition logged (A : Type) : Type := A * list step.

Definition done_with {A : Type} (a : A) : logged A := (a, []).

Definition exec {A : Type} (s : step) (a : A) : logged A := (a, [s]).

Definition and_then {A B : Type} (m : logged A) (k : A -> logged B) : logged B :=
  let '(a, l1) := m in
  let '(b, l2) := k a in
  (b, (l1 ++ l2)%list).

Notation "'run' x ':=' m 'in' k" := (and_then m (fun x => k))
  (at level 10, x name, m at level 100, k at level 200, only parsing).

(** [calculate_total_costs(fob_value, freight_cost, insurance_cost,
    vehicle_age, engine_size)], with its log. *)
Definition calculate_total_costs_logged
  (fob_value freight_cost insurance_cost : Q) (vehicle_age : Z) (engine_size : Q)
  : logged (option CostBreakdown * option string) :=
  let cif_value := fob_value + insurance_cost + freight_cost in
  run duty := exec CustomsDutyStep (calculate_customs_duty cif_value vehicle_age) in
  let '(customs_duty, warning) := duty in
  if truthy warning then done_with (None, warning)
  else
    run excise := exec ExciseDutyStep (calculate_excise_duty cif_value engine_size) in
    let '(excise_duty, excise_rate) := excise in
    run vat := exec VatStep (calculate_vat cif_value customs_duty excise_duty) in
    run idf := exec IdfStep (calculate_idf cif_value customs_duty) in
    run rail_levy := exec RailLevyStep (calculate_rail_levy cif_value) in
    exec FeeAggregationStep
      (let clearing_agent_fee := 25000%Z in
       let transport_to_nairobi := 15000%Z in
       let port_charges := 10000%Z in
       let inspection_fee := 8000%Z in
       let number_plate := 3000%Z in
       let exchange_rate := 129%Z in
       let total_statutory_taxes :=
         customs_duty + excise_duty + vat + idf + rail_levy in
       let total_other_fees :=
         (clearing_agent_fee + transport_to_nairobi
          + port_charges + inspection_fee + number_plate)%Z in
       let grand_total_kes :=
         (cif_value * inject_Z exchange_rate)
         + (total_statutory_taxes * inject_Z exchange_rate)
         + inject_Z total_other_fees in
       (Some (mkCostBreakdown fob_value freight_cost insurance_cost cif_value
                customs_duty excise_duty excise_rate vat idf rail_levy
                total_statutory_taxes clearing_agent_fee transport_to_nairobi
                port_charges inspection_fee number_plate total_other_fees
                grand_total_kes exchange_rate),
        None)).

(** What the caller of [calculate_total_costs] receives: the pair
    [(costs, warning)]. *)
Definition calculate_total_costs
  (fob_value freight_cost insurance_cost : Q) (vehicle_age : Z) (engine_size : Q)
  : option CostBreakdown * option string :=
  fst (calculate_total_costs_logged
         fob_value freight_cost insurance_cost vehicle_age engine_size).

(** The steps a call of [calculate_total_costs] executes, in order. *)
Definition executed_steps
  (fob_value freight_cost insurance_cost : Q) (vehicle_age : Z) (engine_size : Q)
  : list step :=
  snd (calculate_total_costs_logged
         fob_value freight_cost insurance_cost vehicle_age engine_size).

(** ** The matcher, in the words of the specification *)




(** The three-row table of the specification's search example. *)
Definition example_table : DataFrame :=
  mkDataFrame ["MAKE"; "MODEL"]
    [[Text "TOYOTA"; Text "HARRIER"];
     [Text "TOYOTA"; Text "HILUX"];
     [Text "NISSAN"; Text "XTRAIL"]].

(** ** More text primitives *)

(** [str.lower] on one ASCII character. *)
Definition lower_char (c : ascii) : ascii :=
  let n := nat_of_ascii c in
  if ((65 <=? n)%nat && (n <=? 90)%nat)%bool then ascii_of_nat (n + 32) else c.

(** [s.lower()] *)
Fixpoint lower (s : string) : string :=
  match s with
  | EmptyString => EmptyString
  | String c s' => String (lower_char c) (lower s')
  end.

(** The class [\d] on ASCII text. *)
Definition is_digit (c : ascii) : bool :=
  let n := nat_of_ascii c in
  ((48 <=? n)%nat && (n <=? 57)%nat)%bool.

Definition digit_value (c : ascii) : Z := Z.of_nat (nat_of_ascii c - 48).

(** [int(s)] for a string of digits, read from the left. *)
Fixpoint int_of_digits_from (acc : Z) (s : string) : Z :=
  match s with
  | EmptyString => acc
  | String c s' => int_of_digits_from (10 * acc + digit_value c)%Z s'
  end.

Definition int_of_digits (s : string) : Z := int_of_digits_from 0 s.

(** The longest prefix of [s] whose characters are in the class [p], and what
    follows it: a greedy [[...]*]. *)
Fixpoint span (p : ascii -> bool) (s : string) : string * string :=
  match s with
  | EmptyString => (EmptyString, EmptyString)
  | String c s' =>
      if p c then let '(taken, rest) := span p s' in (String c taken, rest)
      else (EmptyString, s)
  end.

(** [re.search]: the leftmost position where [match_here] succeeds. *)
Fixpoint search_leftmost (match_here : string -> option string) (s : string)
  : option string :=
  match match_here s with
  | Some m => Some m
  | None =>
      match s with
      | EmptyString => None
      | String _ s' => search_leftmost match_here s'
      end
  end.

(** ** [extract_engine_size] *)

(** [float(g)] for [g] made of the digits [int_part], and, when there is a
    dot, the digits [frac_part] after it. *)
Definition float_of_decimal (int_part frac_part : string) : Q :=
  inject_Z (int_of_digits int_part)
  + inject_Z (int_of_digits frac_part)
    / inject_Z (10 ^ Z.of_nat (String.length frac_part)).

(** Group 1 of the pattern of line 168 matched at the start of [s]: one or
    more digits, a dot if one follows, and the digits after it, each taken
    greedily.  What the pattern has after the group (white space, then an L
    or a T, all optional) may match the empty string, so the group is all
    that decides. *)
Definition match_engine_size (s : string) : option (string * string) :=
  let '(int_part, rest) := span is_digit s in
  match int_part with
  | EmptyString => None
  | String _ _ =>
      match rest with
      | String "." rest' => Some (int_part, fst (span is_digit rest'))
      | _ => Some (int_part, EmptyString)
      end
  end.

(** [re.search] for that pattern: the leftmost match. *)
Fixpoint search_engine_size (s : string) : option (string * string) :=
  match match_engine_size s with
  | Some g => Some g
  | None =>
      match s with
      | EmptyString => None
      | String _ s' => search_engine_size s'
      end
  end.

(** [extract_engine_size(model_str)] *)
Definition extract_engine_size (model_str : string) : option Q :=
  match search_engine_size model_str with
  | Some (int_part, frac_part) => Some (float_of_decimal int_part frac_part)
  | None => None
  end.

(** ** [estimate_car_value] *)

(** The dictionary [base_values], built in the order of lines 228-236. *)
Definition base_values : gmap string Z :=
  <["VOLKSWAGEN" := 28000%Z]>
    (<["MERCEDES" := 45000%Z]>
       (<["BMW" := 40000%Z]>
          (<["AUDI" := 35000%Z]>
             (<["SUBARU" := 23000%Z]>
                (<["MAZDA" := 18000%Z]>
                   (<["HONDA" := 22000%Z]>
                      (<["NISSAN" := 20000%Z]>
                         (<["TOYOTA" := 25000%Z]> ∅)))))))).

(** [estimate_car_value(year, make, model)]; [current_year] is what
    [datetime.now().year] gives when the call is made. *)
Definition estimate_car_value
  (current_year : Z) (year : Z) (make model : string) : Q :=
  let age := (current_year - year)%Z in
  let base_value := default 20000%Z (base_values !! upper make) in
  let depreciation_rate := 0.15 in
  let estimated_value := inject_Z base_value * (1 - depreciation_rate) ^ age in
  (* max(estimated_value, 5000): the second wins only when it is greater *)
  if Qle_bool 5000 estimated_value then estimated_value else 5000.

(** ** [compare_with_local_market] *)

(** The box the comparison ends with. *)
Inductive recommendation : Type :=
| RecommendImport (potential_savings savings_percentage : Q)
| ConsiderLocalPurchase.

(** What [compare_with_local_market] puts on the page: the two prices and the
    recommendation. *)
Record market_comparison : Type := mkMarketComparison {
  import_total_cost : Q;
  estimated_local_price : Q;
  advice : recommendation
}.

(** [compare_with_local_market(total_cost, make, model, year)] *)
Definition compare_with_local_market
  (total_cost : Q) (make model : string) (year : Z) : market_comparison :=
  let estimated_local_price := total_cost * 1.30 in
  let potential_savings := estimated_local_price - total_cost in
  mkMarketComparison total_cost estimated_local_price
    (if negb (Qle_bool potential_savings 0) then
       let savings_percentage :=
         (potential_savings / estimated_local_price) * 100 in
       RecommendImport potential_savings savings_percentage
     else ConsiderLocalPurchase).

(** ** [scrape_car_details], from the page text on *)

(** The class [[\d,]] of the price patterns. *)
Definition is_amount_char (c : ascii) : bool := is_digit c || Ascii.eqb c ",".

(** The class [[\s:]] of the price patterns. *)
Definition is_sep_char (c : ascii) : bool := is_space c || Ascii.eqb c ":".

(** [s[n:]] *)
Fixpoint skip (n : nat) (s : string) : string :=
  match n, s with
  | O, _ => s
  | S n', String _ s' => skip n' s'
  | S _, EmptyString => EmptyString
  end.

(** The year pattern of line 124 at the start of [s]: 2, 0, then 1 or 2,
    then a digit. *)
Definition match_year (s : string) : option string :=
  match s with
  | String c1 (String c2 (String c3 (String c4 _))) =>
      if Ascii.eqb c1 "2" && Ascii.eqb c2 "0"
         && (Ascii.eqb c3 "1" || Ascii.eqb c3 "2") && is_digit c4
      then Some (String c1 (String c2 (String c3 (String c4 EmptyString))))
      else None
  | _ => None
  end.

(** The first price pattern (line 130) at the start of [s]: a dollar sign and
    a greedy run of one or more digits and commas. *)
Definition match_dollar (s : string) : option string :=
  match s with
  | String "$" rest =>
      match fst (span is_amount_char rest) with
      | EmptyString => None
      | amount => Some (String "$" amount)
      end
  | _ => None
  end.

(** The price patterns of lines 131-132 at the start of [s], for [word] one
    of usd and fob: the word in any case (the search has [re.IGNORECASE]), a
    greedy run of white space and colons, and a greedy run of one or more
    digits and commas.  The two classes share no character, so no shorter run
    of the first can help the second. *)
Definition match_labelled (word : string) (s : string) : option string :=
  if String.prefix word (lower s) then
    let n := String.length word in
    let '(sep, rest) := span is_sep_char (skip n s) in
    match fst (span is_amount_char rest) with
    | EmptyString => None
    | amount => Some (substring 0 n s ++ sep ++ amount)
    end
  else None.

(** [re.sub(r'[^\d]', '', s)]: only the digits stay. *)
Fixpoint keep_digits (s : string) : string :=
  match s with
  | EmptyString => EmptyString
  | String c s' => if is_digit c then String c (keep_digits s') else keep_digits s'
  end.

(** The loop of lines 134-140: the first pattern whose leftmost match holds a
    digit gives the price. *)
Fixpoint first_price (patterns : list (string -> option string)) (text : string)
  : option Z :=
  match patterns with
  | [] => None
  | match_here :: patterns' =>
      match search_leftmost match_here text with
      | Some price_match =>
          let price_str := keep_digits price_match in
          if String.eqb price_str "" then first_price patterns' text
          else Some (int_of_digits price_str)
      | None => first_price patterns' text
      end
  end.

Definition price_patterns : list (string -> option string) :=
  [match_dollar; match_labelled "usd"; match_labelled "fob"].

(** The dictionary [car_data]. *)
Record car_data : Type := mkCarData {
  car_make : string;
  car_model : string;
  car_year : option Z;
  car_engine_size : option Q;
  car_fob_value : option Z
}.

(** [scrape_car_details], lines 112-142: [page_text] is what
    [soup.get_text()] returned for the fetched page.  The request and the
    parsing of the HTML are not modelled. *)
Definition scrape_car_details (page_text : string) : car_data :=
  let text := lower page_text in
  let year :=
    match search_leftmost match_year text with
    | Some year_match => Some (int_of_digits year_match)
    | None => None
    end in
  mkCarData "" "" year None (first_price price_patterns text).

(** ** [display_cost_breakdown] *)

(** A row label of the tax table; the excise row shows its rate. *)
Inductive tax_type : Type :=
| ImportDutyRow
| ExciseDutyRow (rate_percent : Q)
| VatRow
| IdfRow
| RailwayLevyRow.

(** The amounts [display_cost_breakdown] puts on the page, in page order and
    before they are formatted to two decimals. *)
Record breakdown_view : Type := mkBreakdownView {
  shown_fob_usd : Q;
  shown_fob_kes : Q;
  shown_freight : Q;
  shown_insurance : Q;
  shown_cif : Q;
  shown_taxes_usd : list (tax_type * Q);
  shown_taxes_kes : list (tax_type * Q);
  shown_total_taxes_kes : Q;
  shown_total_taxes_usd : Q;
  shown_fees : list (string * Z);
  shown_total_other_fees : Z;
  shown_vehicle_cost_kes : Q;
  shown_all_taxes_kes : Q;
  shown_service_fees : Z;
  shown_grand_total_kes : Q;
  shown_grand_total_usd : Q
}.

(** What a piece of page code does: it shows something, or it raises the
    [TypeError] of subscripting [None]. *)
Inductive rendering (A : Type) : Type :=
| Rendered (a : A)
| TypeErrorRaised.

Arguments Rendered {A} a.
Arguments TypeErrorRaised {A}.

(** [display_cost_breakdown(costs)] *)
Definition display_cost_breakdown (costs : option CostBreakdown)
  : rendering breakdown_view :=
  match costs with
  | None => TypeErrorRaised
  | Some costs =>
      let rate := inject_Z (exchange_rate costs) in
      let rows :=
        [ImportDutyRow; ExciseDutyRow (excise_rate costs); VatRow; IdfRow;
         RailwayLevyRow] in
      let amounts :=
        [customs_duty costs; excise_duty costs; vat costs; idf costs;
         rail_levy costs] in
      Rendered
        (mkBreakdownView
           (fob_value costs)
           (fob_value costs * rate)
           (freight_cost costs)
           (insurance_cost costs)
           (cif_value costs)
           (combine rows amounts)
           (combine rows (map (fun a => a * rate) amounts))
           (total_statutory_taxes costs * rate)
           (total_statutory_taxes costs)
           [("Clearing Agent", clearing_agent_fee costs);
            ("Transport to Nairobi", transport_to_nairobi costs);
            ("Port Charges", port_charges costs);
            ("Inspection (KEBS/PVOC)", inspection_fee costs);
            ("Number Plates & Registration", number_plate costs)]
           (total_other_fees costs)
           (cif_value costs * rate)
           (total_statutory_taxes costs * rate)
           (total_other_fees costs)
           (grand_total_kes costs)
           (grand_total_kes costs / rate))
  end.

(** ** The calculate button of [main] (lines 771-885) *)

(** The table offered for download. *)
Record summary_table : Type := mkSummaryTable {
  summary_vehicle : string;
  summary_year : Z;
  summary_engine_size : Q;
  summary_fob_value : Q;
  summary_cif_value : Q;
  summary_total_statutory_taxes : Q;
  summary_other_fees : Z;
  summary_exchange_rate : Z;
  summary_grand_total : Q
}.

(** What the handler puts on the page that depends on the inputs; headings
    and fixed texts are left out. *)
Inductive page_event : Type :=
| StError (message : string)
| StSuccess
| VehicleSummary (make model : string) (year : Z) (engine_size : Q)
                 (vehicle_age : Z)
| CostBreakdownShown (v : breakdown_view)
| MarketComparisonShown (c : market_comparison)
| DownloadOffered (t : summary_table).

(** The body of [if st.button(...)]: the events in page order, and whether
    the run ended in a [TypeError].  [current_year] is
    [datetime.now().year]; the other arguments are the values of the form
    ([fob_input] is [fob_value], and so on for freight and insurance). *)
Definition calculate_button_clicked
  (current_year : Z) (make model : string) (year : Z)
  (engine_size fob_input freight_input insurance_input : Q)
  : rendering unit * list page_event :=
  if String.eqb make "" || String.eqb model "" then
    (Rendered tt, [StError "Please enter at least Make and Model"])
  else
    let vehicle_age := (current_year - year)%Z in
    let '(costs, warning) :=
      calculate_total_costs fob_input freight_input insurance_input
        vehicle_age engine_size in
    let verdict :=
      match warning with
      | Some message => if truthy warning then StError message else StSuccess
      | None => StSuccess
      end in
    let shown :=
      [verdict; VehicleSummary make model year engine_size vehicle_age] in
    match display_cost_breakdown costs, costs with
    | Rendered v, Some costs =>
        (Rendered tt,
         (shown
          ++ [CostBreakdownShown v;
              MarketComparisonShown
                (compare_with_local_market (grand_total_kes costs)
                   make model year);
              DownloadOffered
                (mkSummaryTable (make ++ " " ++ model) year engine_size
                   (fob_value costs) (cif_value costs)
                   (total_statutory_taxes costs) (total_other_fees costs)
                   (exchange_rate costs) (grand_total_kes costs))])%list)
    | _, _ => (TypeErrorRaised, shown)
    end.

(** ** The search box of the side bar (lines 553-576 and 604-627) *)

(** [frame[frame[label].str.upper().str.contains(query.upper(), na=False)]] *)
Definition filter_frame (frame : DataFrame) (label query : string)
  : outcome DataFrame :=
  let* cells := getitem_str frame label in
  let* mask := str_contains (upper query) (str_upper cells) in
  Returns (mkDataFrame (columns frame) (boolean_index (records frame) mask)).

(** What the expander shows. *)
Inductive sidebar_view : Type :=
| FoundMatches (count : nat) (first_rows : list (list cell))
| NoMatchesFound
| EnterMakeOrModel (first_rows : list (list cell)).

(** The body of the expander for the queries typed in the two boxes. *)
Definition sidebar_search (search_make search_model : string)
  (crsp_data : DataFrame) : outcome sidebar_view :=
  if negb (String.eqb search_make "") || negb (String.eqb search_model "") then
    let filtered_df := crsp_data in
    let* filtered_df :=
      if negb (String.eqb search_make "")
      then filter_frame filtered_df "MAKE" search_make
      else Returns filtered_df in
    let* filtered_df :=
      if negb (String.eqb search_model "")
      then filter_frame filtered_df "MODEL" search_model
      else Returns filtered_df in
    if (0 <? List.length (records filtered_df))%nat
    then Returns (FoundMatches (List.length (records filtered_df))
                    (firstn 50 (records filtered_df)))
    else Returns NoMatchesFound
  else Returns (EnterMakeOrModel (firstn 20 (records crsp_data))).

(** ** Shapes of text, for the statements *)

(** Every character of [s] is in the class [p]. *)
Fixpoint all_chars (p : ascii -> bool) (s : string) : bool :=
  match s with
  | EmptyString => true
  | String c s' => p c && all_chars p s'
  end.


Definition non_digit (c : ascii) : bool := negb (is_digit c).


Definition non_quote (c : ascii) : bool := negb (Ascii.eqb c dquote).

(** Every white-space character of [s] is a plain space, and none follows
    another; [after_space] tells that the character before [s] was one. *)
Fixpoint single_spaced (after_space : bool) (s : string) : bool :=
  match s with
  | EmptyString => true
  | String c s' =>
      if is_space c
      then Ascii.eqb c " " && negb after_space && single_spaced true s'
      else single_spaced false s'
  end.

(** What the side bar shows for the rows that passed both filters. *)
Definition matches_view (rows : list (list cell)) : sidebar_view :=
  if (0 <? List.length rows)%nat
  then FoundMatches (List.length rows) (firstn 50 rows)
  else NoMatchesFound.

(** * Properties of the duty stack *)

Section DutyStack.

Variables fob freight insurance : Q.
Variable age : Z.
Variable engine : Q.

(** An age of at most 7 passes the gate: the call runs to its end and returns
    the breakdown built from the five helper results. *)
Lemma eligible_breakdown :
  (age <= 7)%Z ->
  let cif := fob + insurance + freight in
  let customs := cif * 0.25 in
  let excise := fst (calculate_excise_duty cif engine) in
  let v := calculate_vat cif customs excise in
  let i := calculate_idf cif customs in
  let r := calculate_rail_levy cif in
  let total := customs + excise + v + i + r in
  calculate_total_costs_logged fob freight insurance age engine =
    ((Some (mkCostBreakdown fob freight insurance cif customs excise
              (snd (calculate_excise_duty cif engine)) v i r total
              25000 15000 10000 8000 3000 61000
              (cif * inject_Z 129 + total * inject_Z 129 + inject_Z 61000) 129),
      None),
     [CustomsDutyStep; ExciseDutyStep; VatStep; IdfStep; RailLevyStep;
      FeeAggregationStep]).
Proof.
  intros Hage.
  unfold calculate_total_costs_logged, calculate_customs_duty.
  assert (Hgt : (age >? 8)%Z = false) by lia.
  assert (Hle : (age <=? 7)%Z = true) by lia.
  rewrite Hgt, Hle. reflexivity.
Qed.

(** An age above 7 is stopped by the gate after the first step. *)
Lemma rejected_outcome :
  (7 < age)%Z ->
  calculate_total_costs_logged fob freight insurance age engine =
    ((None,
      Some (if (age >? 8)%Z then over_age_warning else general_age_warning)),
     [CustomsDutyStep]).
Proof.
  intros Hage.
  unfold calculate_total_costs_logged, calculate_customs_duty.
  destruct (age >? 8)%Z eqn:Hgt.
  - reflexivity.
  - assert (Hle : (age <=? 7)%Z = false) by lia.
    rewrite Hle. reflexivity.
Qed.

End DutyStack.


(** C1 (as amended).  For FOB 15000, freight 1200, insurance 300, a 2.0 litre
    engine and age 4, [calculate_total_costs] returns a breakdown with CIF
    16500, customs duty 4125, excise duty 4125 at the 25 percent tier, VAT
    3960, declaration fee 464.0625, rail levy 330 and total statutory taxes
    13004.0625. *)
Theorem end_to_end_example :
  exists b : CostBreakdown,
    calculate_total_costs 15000 1200 300 4 2.0 = (Some b, None)
    /\ cif_value b == 16500
    /\ customs_duty b == 4125.00
    /\ excise_duty b == 4125.00
    /\ excise_rate b == 25
    /\ vat b == 3960.00
    /\ idf b == 464.0625
    /\ rail_levy b == 330.00
    /\ total_statutory_taxes b == 13004.0625.
Proof.
  eexists. split.
  - unfold calculate_total_costs.
    rewrite eligible_breakdown by lia. reflexivity.
  - cbn [cif_value customs_duty excise_duty excise_rate vat idf rail_levy
         total_statutory_taxes].
    repeat split; vm_compute; reflexivity.
Qed.

(** C1, the claim as stated fails: at that input the VAT field is not 3798
    and the total of the statutory taxes is not 12842.0625. *)
Lemma end_to_end_vat_is_not_3798 :
  exists b : CostBreakdown,
    calculate_total_costs 15000 1200 300 4 2.0 = (Some b, None)
    /\ ~ vat b == 3798.00
    /\ ~ total_statutory_taxes b == 12842.0625.
Proof.
  eexists. split.
  - unfold calculate_total_costs.
    rewrite eligible_breakdown by lia. reflexivity.
  - cbn [vat total_statutory_taxes].
    split; intros H; vm_compute in H; discriminate H.
Qed.

(** C2 (as amended).  [calculate_total_costs] checks nothing but the age gate:
    it returns no breakdown exactly when the age is above 7, and for every
    age of at most 7, negative ones included, and every FOB, freight,
    insurance and engine size, of any sign, it returns a breakdown that holds
    the values as given, with CIF their plain sum. *)
Theorem only_the_age_gate_refuses
  (fob freight insurance : Q) (age : Z) (engine : Q) :
  (fst (calculate_total_costs fob freight insurance age engine) = None
   <-> (7 < age)%Z)
  /\ ((age <= 7)%Z ->
      exists b : CostBreakdown,
        calculate_total_costs fob freight insurance age engine = (Some b, None)
        /\ fob_value b = fob
        /\ freight_cost b = freight
        /\ insurance_cost b = insurance
        /\ cif_value b = fob + insurance + freight).
Proof.
  unfold calculate_total_costs. split.
  - destruct (Z_lt_le_dec 7 age) as [Hgt | Hle].
    + rewrite rejected_outcome by exact Hgt. cbn [fst]. tauto.
    + rewrite eligible_breakdown by exact Hle. cbn [fst].
      split; [discriminate | lia].
  - intros Hle. rewrite eligible_breakdown by exact Hle. cbn [fst].
    eexists. split; [reflexivity |]. cbn. repeat split.
Qed.

Lemma only_the_age_gate_refuses_witness :
  exists b : CostBreakdown,
    calculate_total_costs 0 0 0 (-3) 0 = (Some b, None)
    /\ fob_value b = 0
    /\ freight_cost b = 0
    /\ insurance_cost b = 0
    /\ cif_value b = 0 + 0 + 0.
Proof.
  apply (proj2 (only_the_age_gate_refuses 0 0 0 (-3) 0)). lia.
Defined.

(** C2, the claim as stated fails: a negative FOB, a zero engine size and a
    negative age are not refused, a breakdown is computed from them. *)
Lemma negative_inputs_get_a_breakdown :
  exists b : CostBreakdown,
    calculate_total_costs (-15000) 1200 300 (-1) 0 = (Some b, None)
    /\ cif_value b == -13500
    /\ grand_total_kes b < 0.
Proof.
  eexists. split.
  - unfold calculate_total_costs.
    rewrite eligible_breakdown by lia. reflexivity.
  - cbn [cif_value grand_total_kes]. split; vm_compute; reflexivity.
Qed.

(** C4.  The gate of [calculate_customs_duty]: every age above 8 is rejected
    with the over-age reason, every age of at most 7 is eligible with a duty of
    25 percent of CIF, and age 8 is rejected with the second reason; so age 9
    is rejected and age 0 is eligible.  [calculate_total_costs] hands the
    rejection on as its only result. *)
Theorem customs_duty_gate (cif : Q) (age : Z) :
  ((8 < age)%Z ->
   calculate_customs_duty cif age = (0, Some over_age_warning))
  /\ ((age <= 7)%Z ->
      calculate_customs_duty cif age = (cif * 0.25, None))
  /\ (age = 8%Z ->
      calculate_customs_duty cif age = (0, Some general_age_warning))
  /\ calculate_customs_duty cif 9 = (0, Some over_age_warning)
  /\ calculate_customs_duty cif 0 = (cif * 0.25, None)
  /\ over_age_warning <> general_age_warning
  /\ (forall fob freight insurance engine,
        (7 < age)%Z ->
        calculate_total_costs fob freight insurance age engine =
          (None, snd (calculate_customs_duty
                        (fob + insurance + freight) age))).
Proof.
  unfold calculate_customs_duty.
  repeat split.
  - intros H. assert (Hgt : (age >? 8)%Z = true) by lia. now rewrite Hgt.
  - intros H. assert (Hgt : (age >? 8)%Z = false) by lia.
    assert (Hle : (age <=? 7)%Z = true) by lia. now rewrite Hgt, Hle.
  - intros ->. reflexivity.
  - discriminate.
  - intros fob freight insurance engine H.
    unfold calculate_total_costs. rewrite rejected_outcome by exact H.
    cbn [fst]. destruct (age >? 8)%Z eqn:Hgt.
    + reflexivity.
    + assert (Hle : (age <=? 7)%Z = false) by lia. now rewrite Hle.
Qed.

Lemma customs_duty_gate_witness :
  calculate_customs_duty 16500 9 = (0, Some over_age_warning)
  /\ calculate_customs_duty 16500 0 = (16500 * 0.25, None)
  /\ calculate_customs_duty 16500 8 = (0, Some general_age_warning).
Proof.
  split; [| split].
  - apply (proj1 (customs_duty_gate 16500 9)). lia.
  - apply (proj1 (proj2 (customs_duty_gate 16500 0))). lia.
  - apply (proj1 (proj2 (proj2 (customs_duty_gate 16500 8)))). reflexivity.
Defined.


(** The rate in percent, by tier. *)
Lemma excise_rate_cases (engine : Q) :
  forall cif : Q,
    (engine <= 1.5 /\ snd (calculate_excise_duty cif engine) == 20)
    \/ (1.5 < engine /\ engine <= 2.0
        /\ snd (calculate_excise_duty cif engine) == 25)
    \/ (2.0 < engine /\ engine <= 2.5
        /\ snd (calculate_excise_duty cif engine) == 30)
    \/ (2.5 < engine /\ snd (calculate_excise_duty cif engine) == 35).
Proof.
  intros cif. unfold calculate_excise_duty; cbn [snd].
  destruct (Qle_bool engine 1.5) eqn:H1.
  { apply Qle_bool_iff in H1. left. split; [exact H1 | reflexivity]. }
  apply not_true_iff_false in H1. rewrite Qle_bool_iff in H1.
  destruct (Qle_bool engine 2.0) eqn:H2.
  { apply Qle_bool_iff in H2. right; left.
    repeat split; [lra | exact H2]. }
  apply not_true_iff_false in H2. rewrite Qle_bool_iff in H2.
  destruct (Qle_bool engine 2.5) eqn:H3.
  { apply Qle_bool_iff in H3. right; right; left.
    repeat split; [lra | exact H3]. }
  apply not_true_iff_false in H3. rewrite Qle_bool_iff in H3.
  right; right; right. split; [lra | reflexivity].
Qed.

(** Case analysis on the tier of [engine]; [E] names the rate equation. *)
Ltac by_tier engine cif E :=
  destruct (excise_rate_cases engine cif)
    as [[? E] | [(? & ? & E) | [(? & ? & E) | [? E]]]].






(** C7.  For every input whose age makes the vehicle ineligible,
    [calculate_total_costs] returns the rejection reason and no breakdown,
    and the only step it executes is the customs-duty gate: the excise, VAT,
    declaration-fee, levy and fee-aggregation steps do not run.  On every
    input the caller gets a breakdown or a reason, never both. *)
Theorem rejection_returns_only_the_reason
  (fob freight insurance : Q) (age : Z) (engine : Q) :
  ((7 < age)%Z ->
   exists reason : string,
     calculate_total_costs fob freight insurance age engine
       = (None, Some reason)
     /\ (reason = over_age_warning \/ reason = general_age_warning)
     /\ executed_steps fob freight insurance age engine = [CustomsDutyStep])
  /\ ((exists b : CostBreakdown,
         calculate_total_costs fob freight insurance age engine
           = (Some b, None))
      \/ (exists reason : string,
            calculate_total_costs fob freight insurance age engine
              = (None, Some reason))).
Proof.
  unfold calculate_total_costs, executed_steps. split.
  - intros Hage. rewrite rejected_outcome by exact Hage. cbn [fst snd].
    eexists. split; [reflexivity |]. split; [| reflexivity].
    destruct (age >? 8)%Z; [left | right]; reflexivity.
  - destruct (Z_lt_le_dec 7 age) as [Hgt | Hle].
    + right. rewrite rejected_outcome by exact Hgt. cbn [fst]. eauto.
    + left. rewrite eligible_breakdown by exact Hle. cbn [fst]. eauto.
Qed.

Lemma rejection_returns_only_the_reason_witness :
  exists reason : string,
    calculate_total_costs 15000 1200 300 9 2.0 = (None, Some reason)
    /\ (reason = over_age_warning \/ reason = general_age_warning)
    /\ executed_steps 15000 1200 300 9 2.0 = [CustomsDutyStep].
Proof.
  apply (proj1 (rejection_returns_only_the_reason 15000 1200 300 9 2.0)). lia.
Defined.




(** * Properties of the text primitives *)

Lemma string_app_cons (c : ascii) (l r : string) :
  String c l ++ r = String c (l ++ r).
Proof. reflexivity. Qed.

Lemma prefix_app (p s : string) :
  String.prefix p s = true <-> exists r : string, s = p ++ r.
Proof.
  revert s. induction p as [| a p IH]; intros s.
  - destruct s; (split; [intros _; eexists; reflexivity | reflexivity]).
  - destruct s as [| b s]; cbn [String.prefix].
    + split; [discriminate | intros [r Hr]; discriminate Hr].
    + destruct (ascii_dec a b) as [-> | Hne].
      * rewrite IH. split; intros [r Hr]; exists r;
          rewrite string_app_cons in *; congruence.
      * split; [discriminate |].
        intros [r Hr]. rewrite string_app_cons in Hr. congruence.
Qed.

(** [contains] decides substring containment. *)
Lemma contains_is_substring (p s : string) :
  contains p s = true <-> is_substring p s.
Proof.
  unfold is_substring. induction s as [| c s IH]; cbn [contains].
  - rewrite orb_false_r, prefix_app. split.
    + intros [r Hr]. exists EmptyString, r. exact Hr.
    + intros (l & r & H). destruct l; [exists r; exact H | discriminate H].
  - rewrite orb_true_iff, prefix_app, IH. split.
    + intros [[r Hr] | (l & r & H)].
      * exists EmptyString, r. exact Hr.
      * exists (String c l), r. rewrite string_app_cons. now rewrite H.
    + intros (l & r & H). destruct l as [| c' l].
      * left. exists r. exact H.
      * right. exists l, r. rewrite string_app_cons in H. congruence.
Qed.





Lemma upper_char_idempotent (c : ascii) :
  upper_char (upper_char c) = upper_char c.
Proof.
  destruct c as [[] [] [] [] [] [] [] []]; reflexivity.
Qed.

Lemma upper_idempotent (s : string) : upper (upper s) = upper s.
Proof.
  induction s as [| c s IH]; cbn; [reflexivity |].
  now rewrite upper_char_idempotent, IH.
Qed.

(** * Properties of the frame operations *)

Lemma mask_and_map {A : Type} (f g : A -> bool) (l : list A) :
  mask_and (map f l) (map g l) = map (fun x => f x && g x) l.
Proof.
  induction l as [| x l IH]; cbn; [reflexivity | now rewrite IH].
Qed.

Lemma boolean_index_map (f : list cell -> bool) (rows : list (list cell)) :
  boolean_index rows (map f rows) = List.filter f rows.
Proof.
  induction rows as [| r rows IH]; cbn; [reflexivity |].
  rewrite IH. reflexivity.
Qed.









(** * Properties of [load_crsp_file] *)

Lemma normalize_header_is_upper (h : string) :
  upper (normalize_header h) = normalize_header h.
Proof. unfold normalize_header. apply upper_idempotent. Qed.

(** On upper-cased labels, [column_mapping] only ever maps a label to
    itself. *)
Lemma mapping_step_identity (m : gmap string string) (col : string) :
  upper col = col ->
  (forall k v, m !! k = Some v -> v = k) ->
  forall k v, mapping_step m col !! k = Some v -> v = k.
Proof.
  intros Hup Hm k v. unfold mapping_step. rewrite Hup.
  destruct (String.eqb_spec col "MAKE") as [-> | _].
  - rewrite lookup_insert_Some. intros [[<- <-] | [_ H]]; auto.
  - destruct (String.eqb_spec col "MODEL") as [-> | _]; cbn [andb].
    + destruct (negb (contains "NUMBER" "MODEL")); [| apply Hm].
      rewrite lookup_insert_Some. intros [[<- <-] | [_ H]]; auto.
    + apply Hm.
Qed.

Lemma column_mapping_identity (cols : list string) :
  Forall (fun col => upper col = col) cols ->
  forall m : gmap string string,
    (forall k v, m !! k = Some v -> v = k) ->
    forall k v, fold_left mapping_step cols m !! k = Some v -> v = k.
Proof.
  induction 1 as [| col cols Hcol _ IH]; intros m Hm; cbn [fold_left].
  - exact Hm.
  - apply IH. now apply mapping_step_identity.
Qed.

Lemma rename_columns_identity (m : gmap string string) (cols : list string) :
  (forall k v, m !! k = Some v -> v = k) ->
  rename_columns m cols = cols.
Proof.
  intros Hm. unfold rename_columns.
  induction cols as [| col cols IH]; cbn [map]; [reflexivity |].
  rewrite IH. f_equal.
  destruct (m !! col) as [v |] eqn:Hv; cbn; [now apply Hm | reflexivity].
Qed.

(** The renaming of [load_crsp_file] changes no label: an accepted frame
    comes back with its normalised headers, in order, and its rows. *)
Lemma load_crsp_file_keeps_normalized_headers (df df' : DataFrame) :
  load_crsp_file df = Some df' ->
  df' = mkDataFrame (map normalize_header (columns df)) (records df).
Proof.
  unfold load_crsp_file.
  destruct (_ && _); [| discriminate].
  intros [= <-]. f_equal.
  apply rename_columns_identity.
  apply column_mapping_identity.
  - apply List.Forall_forall. intros col Hin.
    apply in_map_iff in Hin as (h & <- & _).
    apply normalize_header_is_upper.
  - intros k v H. rewrite lookup_empty in H. discriminate H.
Qed.

(** The frame is accepted when some normalised header contains MAKE and some
    normalised header contains MODEL but not NUMBER. *)
Lemma load_crsp_file_accepts (df : DataFrame) :
  load_crsp_file df <> None
  <-> (exists h, In h (columns df)
                 /\ is_substring "MAKE" (normalize_header h))
      /\ (exists h, In h (columns df)
                    /\ is_substring "MODEL" (normalize_header h)
                    /\ ~ is_substring "NUMBER" (normalize_header h)).
Proof.
  unfold load_crsp_file.
  set (hm := existsb _ _). set (hd := existsb _ _).
  assert (Hm : hm = true
               <-> exists h, In h (columns df)
                             /\ is_substring "MAKE" (normalize_header h)).
  { unfold hm. rewrite existsb_exists. split.
    - intros (c & Hin & Hc). apply in_map_iff in Hin as (h & <- & Hin).
      rewrite normalize_header_is_upper, contains_is_substring in Hc. eauto.
    - intros (h & Hin & Hc). exists (normalize_header h). split.
      + now apply in_map.
      + now rewrite normalize_header_is_upper, contains_is_substring. }
  assert (Hd : hd = true
               <-> exists h, In h (columns df)
                             /\ is_substring "MODEL" (normalize_header h)
                             /\ ~ is_substring "NUMBER" (normalize_header h)).
  { unfold hd. rewrite existsb_exists. split.
    - intros (c & Hin & Hc). apply in_map_iff in Hin as (h & <- & Hin).
      rewrite normalize_header_is_upper, andb_true_iff, negb_true_iff,
        contains_is_substring in Hc.
      destruct Hc as [H1 H2]. exists h. repeat split; [assumption .. |].
      rewrite <- contains_is_substring, H2. discriminate.
    - intros (h & Hin & H1 & H2). exists (normalize_header h). split.
      + now apply in_map.
      + rewrite normalize_header_is_upper, andb_true_iff, negb_true_iff,
          contains_is_substring.
        split; [exact H1 |].
        destruct (contains "NUMBER" (normalize_header h)) eqn:E;
          [| reflexivity].
        exfalso. apply H2. now apply contains_is_substring. }
  rewrite <- Hm, <- Hd.
  destruct hm, hd; cbn; split; intros H;
    solve [discriminate | tauto | destruct H; discriminate
          | exfalso; now apply H].
Qed.

(** The schema examples of the specification: white space around Make is
    trimmed, and Model Number is left alone next to Model. *)
Example load_crsp_file_schema_example (rows : list (list cell)) :
  load_crsp_file
    (mkDataFrame ["  Make  "; "Model Number"; "Model"; "CRSP (KES)"] rows)
  = Some (mkDataFrame ["MAKE"; "MODEL NUMBER"; "MODEL"; "CRSP (KES)"] rows).
Proof. reflexivity. Qed.

(** C3, evaluated where the code departs from it.  The headers Make and
    Model Name pass the check of [load_crsp_file], since Model Name contains
    MODEL and not NUMBER, but the frame comes back with the label MODEL NAME:
    the column found as the model column is not renamed to MODEL, and
    [search_crsp] on the loaded frame raises [KeyError] for MODEL.  In the
    same way Maker passes as the make column without being equal to MAKE,
    and is not renamed. *)
Theorem model_name_header_is_accepted_but_not_renamed (rows : list (list cell)) :
  load_crsp_file (mkDataFrame ["Make"; "Model Name"] rows)
  = Some (mkDataFrame ["MAKE"; "MODEL NAME"] rows)
  /\ search_crsp "TOYOTA" "HARRIER"
       (load_crsp_file (mkDataFrame ["Make"; "Model Name"] rows))
     = Raises (KeyError "MODEL")
  /\ load_crsp_file (mkDataFrame ["Maker"; "Model"] rows)
     = Some (mkDataFrame ["MAKER"; "MODEL"] rows)
  /\ search_crsp "TOYOTA" "HARRIER"
       (load_crsp_file (mkDataFrame ["Maker"; "Model"] rows))
     = Raises (KeyError "MAKE").
Proof.
  repeat split.
Qed.

(** * Further properties of the duty stack *)

(** The statutory taxes of an eligible vehicle, as a multiple of CIF. *)
Lemma statutory_taxes_by_rate
  (fob freight insurance : Q) (age : Z) (engine : Q) :
  (age <= 7)%Z ->
  exists b : CostBreakdown,
    calculate_total_costs fob freight insurance age engine = (Some b, None)
    /\ cif_value b = fob + insurance + freight
    /\ (excise_rate b == 20 \/ excise_rate b == 25
        \/ excise_rate b == 30 \/ excise_rate b == 35)
    /\ customs_duty b == 0.25 * cif_value b
    /\ excise_duty b == excise_rate b / 100 * cif_value b
    /\ vat b == 0.16 * (1.25 + excise_rate b / 100) * cif_value b
    /\ idf b == 0.028125 * cif_value b
    /\ rail_levy b == 0.02 * cif_value b
    /\ total_statutory_taxes b
       == (0.498125 + 1.16 * (excise_rate b / 100)) * cif_value b
    /\ grand_total_kes b
       == 129 * (cif_value b + total_statutory_taxes b) + 61000.
Proof.
  intros Hage. unfold calculate_total_costs.
  rewrite eligible_breakdown by exact Hage. cbn [fst].
  eexists. split; [reflexivity |].
  cbn [cif_value excise_rate customs_duty excise_duty vat idf rail_levy
       total_statutory_taxes grand_total_kes].
  set (cif := fob + insurance + freight).
  unfold calculate_vat, calculate_idf, calculate_rail_levy,
    calculate_excise_duty, inject_Z.
  cbn [fst snd].
  destruct (Qle_bool engine 1.5); [|destruct (Qle_bool engine 2.0);
    [|destruct (Qle_bool engine 2.5)]];
    (split; [reflexivity |]);
    (split; [first [left; reflexivity | right; left; reflexivity
                   | right; right; left; reflexivity
                   | right; right; right; reflexivity] |]);
    repeat split; field.
Qed.

(** Turns a division by 100 into a factor, for the linear solvers. *)
Ltac percent := unfold Qdiv; change (/ 100) with (1 # 100).



(** X2.  For an eligible vehicle whose FOB, freight and insurance are not
    negative, none of the five taxes is negative, and the grand total is at
    least the converted CIF plus the 61000 of flat fees. *)
Theorem landed_cost_is_at_least_cif_and_fees
  (fob freight insurance : Q) (age : Z) (engine : Q) :
  (age <= 7)%Z -> 0 <= fob -> 0 <= freight -> 0 <= insurance ->
  exists b : CostBreakdown,
    calculate_total_costs fob freight insurance age engine = (Some b, None)
    /\ 0 <= customs_duty b /\ 0 <= excise_duty b /\ 0 <= vat b
    /\ 0 <= idf b /\ 0 <= rail_levy b
    /\ 129 * cif_value b + 61000 <= grand_total_kes b.
Proof.
  intros Hage Hfob Hfreight Hins.
  destruct (statutory_taxes_by_rate fob freight insurance age engine Hage)
    as (b & Hb & Hc & Hrate & H1 & H2 & H3 & H4 & H5 & Htot & Hgrand).
  exists b. split; [exact Hb |].
  rewrite Hgrand, Htot, H1, H2, H3, H4, H5, Hc.
  assert (Hcif : 0 <= fob + insurance + freight) by lra.
  set (cif := fob + insurance + freight) in *.
  destruct Hrate as [H | [H | [H | H]]]; rewrite H; percent;
    repeat split; lra.
Qed.

Lemma landed_cost_is_at_least_cif_and_fees_witness :
  exists b : CostBreakdown,
    calculate_total_costs 1000 500 100 0 0.5 = (Some b, None)
    /\ 0 <= customs_duty b /\ 0 <= excise_duty b /\ 0 <= vat b
    /\ 0 <= idf b /\ 0 <= rail_levy b
    /\ 129 * cif_value b + 61000 <= grand_total_kes b.
Proof.
  apply (landed_cost_is_at_least_cif_and_fees 1000 500 100 0 0.5).
  - lia.
  - vm_compute; discriminate.
  - vm_compute; discriminate.
  - vm_compute; discriminate.
Defined.

(** X3.  With FOB, freight, insurance and an eligible age fixed, and a CIF
    that is not negative, a larger engine never lowers the grand total. *)
Theorem grand_total_monotone_in_engine_size
  (fob freight insurance : Q) (age : Z) (engine1 engine2 : Q) :
  (age <= 7)%Z -> 0 <= fob + insurance + freight -> engine1 <= engine2 ->
  exists b1 b2 : CostBreakdown,
    calculate_total_costs fob freight insurance age engine1 = (Some b1, None)
    /\ calculate_total_costs fob freight insurance age engine2 = (Some b2, None)
    /\ excise_rate b1 <= excise_rate b2
    /\ grand_total_kes b1 <= grand_total_kes b2.
Proof.
  intros Hage Hcif Hle.
  destruct (statutory_taxes_by_rate fob freight insurance age engine1 Hage)
    as (b1 & Hb1 & Hc1 & _ & _ & _ & _ & _ & _ & Htot1 & Hgrand1).
  destruct (statutory_taxes_by_rate fob freight insurance age engine2 Hage)
    as (b2 & Hb2 & Hc2 & _ & _ & _ & _ & _ & _ & Htot2 & Hgrand2).
  exists b1, b2. split; [exact Hb1 |]. split; [exact Hb2 |].
  assert (Hrate : excise_rate b1 <= excise_rate b2).
  { unfold calculate_total_costs in Hb1, Hb2.
    rewrite eligible_breakdown in Hb1, Hb2 by exact Hage.
    cbn [fst] in Hb1, Hb2.
    injection Hb1 as <-. injection Hb2 as <-. cbn [excise_rate].
    set (cif := fob + insurance + freight).
    by_tier engine1 cif E1; by_tier engine2 cif E2; rewrite E1, E2;
      solve [vm_compute; discriminate | exfalso; lra]. }
  split; [exact Hrate |].
  rewrite Hgrand1, Hgrand2, Htot1, Htot2, Hc1, Hc2.
  set (cif := fob + insurance + freight) in *.
  revert Hrate. generalize (excise_rate b1), (excise_rate b2).
  intros r1 r2 Hrate. percent. nra.
Qed.

Lemma grand_total_monotone_in_engine_size_witness :
  exists b1 b2 : CostBreakdown,
    calculate_total_costs 15000 1200 300 4 1.5 = (Some b1, None)
    /\ calculate_total_costs 15000 1200 300 4 3.0 = (Some b2, None)
    /\ excise_rate b1 <= excise_rate b2
    /\ grand_total_kes b1 <= grand_total_kes b2.
Proof.
  apply (grand_total_monotone_in_engine_size 15000 1200 300 4 1.5 3.0).
  - lia.
  - vm_compute; discriminate.
  - vm_compute; discriminate.
Defined.

(** X4.  Once the vehicle is eligible its age plays no part: two ages of at
    most 7, a negative one included, give the same breakdown. *)
Theorem eligible_age_does_not_change_the_costs
  (fob freight insurance : Q) (age1 age2 : Z) (engine : Q) :
  (age1 <= 7)%Z -> (age2 <= 7)%Z ->
  calculate_total_costs fob freight insurance age1 engine
  = calculate_total_costs fob freight insurance age2 engine.
Proof.
  intros H1 H2. unfold calculate_total_costs.
  now rewrite !eligible_breakdown by assumption.
Qed.

Lemma eligible_age_does_not_change_the_costs_witness :
  calculate_total_costs 15000 1200 300 0 2.0
  = calculate_total_costs 15000 1200 300 7 2.0.
Proof.
  apply (eligible_age_does_not_change_the_costs 15000 1200 300 0 7 2.0); lia.
Defined.

(** * Properties of the page code *)

(** The two cases of the recommendation. *)
Lemma advice_by_sign (total_cost : Q) (make model : string) (year : Z) :
  (0 < total_cost ->
   exists savings percentage : Q,
     advice (compare_with_local_market total_cost make model year)
     = RecommendImport savings percentage
     /\ savings == 0.30 * total_cost
     /\ percentage == 300 # 13)
  /\ (total_cost <= 0 ->
      advice (compare_with_local_market total_cost make model year)
      = ConsiderLocalPurchase).
Proof.
  unfold compare_with_local_market; cbn [advice].
  destruct (Qle_bool (total_cost * 1.30 - total_cost) 0) eqn:E; cbn [negb].
  - apply Qle_bool_iff in E. split.
    + intros H. exfalso. lra.
    + reflexivity.
  - apply not_true_iff_false in E. rewrite Qle_bool_iff in E. split.
    + intros H. do 2 eexists. split; [reflexivity |]. split.
      * ring.
      * field. lra.
    + intros H. exfalso. lra.
Qed.

(** X5.  [compare_with_local_market] recommends importing exactly when the
    total cost is positive, and then always with the same figures: savings of
    30 percent of the total cost, which is 300/13 (about 23.1) percent of the
    estimated local price.  A total cost of zero or less gives the other
    recommendation. *)
Theorem import_is_recommended_for_every_positive_cost
  (total_cost : Q) (make model : string) (year : Z) :
  (0 < total_cost ->
   exists savings percentage : Q,
     advice (compare_with_local_market total_cost make model year)
     = RecommendImport savings percentage
     /\ savings == 0.30 * total_cost
     /\ percentage == 300 # 13)
  /\ (total_cost <= 0 ->
      advice (compare_with_local_market total_cost make model year)
      = ConsiderLocalPurchase).
Proof. apply advice_by_sign. Qed.

Lemma import_is_recommended_for_every_positive_cost_witness :
  (exists savings percentage : Q,
     advice (compare_with_local_market 3867024.0625 "TOYOTA" "HARRIER" 2022)
     = RecommendImport savings percentage
     /\ savings == 0.30 * 3867024.0625
     /\ percentage == 300 # 13)
  /\ advice (compare_with_local_market 0 "TOYOTA" "HARRIER" 2022)
     = ConsiderLocalPurchase.
Proof.
  split.
  - apply (proj1 (import_is_recommended_for_every_positive_cost
                    3867024.0625 "TOYOTA" "HARRIER" 2022)).
    reflexivity.
  - apply (proj2 (import_is_recommended_for_every_positive_cost
                    0 "TOYOTA" "HARRIER" 2022)).
    vm_compute. discriminate.
Defined.



(** X7.  When make and model are filled in and the vehicle is older than 7
    years, the calculate button shows the warning and the vehicle summary and
    then ends in a [TypeError]: the handler goes on to
    [display_cost_breakdown] with the [None] that came with the warning. *)
Theorem rejected_vehicle_ends_in_a_type_error
  (current_year : Z) (make model : string) (year : Z)
  (engine fob freight insurance : Q) :
  make <> "" -> model <> "" -> (7 < current_year - year)%Z ->
  calculate_button_clicked current_year make model year
    engine fob freight insurance
  = (TypeErrorRaised,
     [StError (if (current_year - year >? 8)%Z
               then over_age_warning else general_age_warning);
      VehicleSummary make model year engine (current_year - year)]).
Proof.
  intros Hmake Hmodel Hage. unfold calculate_button_clicked.
  apply String.eqb_neq in Hmake, Hmodel. rewrite Hmake, Hmodel. cbn [orb].
  unfold calculate_total_costs. rewrite rejected_outcome by exact Hage.
  cbn [fst]. destruct (current_year - year >? 8)%Z; reflexivity.
Qed.

Lemma rejected_vehicle_ends_in_a_type_error_witness :
  calculate_button_clicked 2026 "TOYOTA" "HARRIER" 2016 2.0 15000 1200 300
  = (TypeErrorRaised,
     [StError over_age_warning;
      VehicleSummary "TOYOTA" "HARRIER" 2016 2.0 10]).
Proof.
  apply (rejected_vehicle_ends_in_a_type_error
           2026 "TOYOTA" "HARRIER" 2016 2.0 15000 1200 300).
  - discriminate.
  - discriminate.
  - reflexivity.
Defined.

(** X8.  When make and model are filled in, the vehicle is at most 7 years
    old and FOB, freight and insurance are not negative, the calculate button
    runs to its end: it shows the success note, the summary, the breakdown of
    [calculate_total_costs], the comparison and the download, the comparison
    is made on the grand total and always recommends importing, and the
    download carries the same grand total. *)
Theorem eligible_vehicle_gets_the_full_page
  (current_year : Z) (make model : string) (year : Z)
  (engine fob freight insurance : Q) :
  make <> "" -> model <> "" -> (current_year - year <= 7)%Z ->
  0 <= fob -> 0 <= freight -> 0 <= insurance ->
  exists (b : CostBreakdown) (v : breakdown_view) (c : market_comparison)
         (t : summary_table) (savings percentage : Q),
    calculate_total_costs fob freight insurance (current_year - year) engine
    = (Some b, None)
    /\ calculate_button_clicked current_year make model year
         engine fob freight insurance
       = (Rendered tt,
          [StSuccess;
           VehicleSummary make model year engine (current_year - year);
           CostBreakdownShown v; MarketComparisonShown c; DownloadOffered t])
    /\ display_cost_breakdown (Some b) = Rendered v
    /\ import_total_cost c = grand_total_kes b
    /\ advice c = RecommendImport savings percentage
    /\ summary_grand_total t = grand_total_kes b.
Proof.
  intros Hmake Hmodel Hage Hfob Hfreight Hins.
  destruct (statutory_taxes_by_rate
              fob freight insurance (current_year - year) engine Hage)
    as (b & Hb & Hcif & Hrate & _ & _ & _ & _ & _ & Htot & Hgrand).
  assert (Hpos : 0 < grand_total_kes b).
  { rewrite Hgrand, Htot, Hcif.
    destruct Hrate as [H | [H | [H | H]]]; rewrite H; percent; lra. }
  destruct (proj1 (advice_by_sign (grand_total_kes b) make model year) Hpos)
    as (savings & percentage & Hadv & _).
  exists b. do 3 eexists. exists savings, percentage.
  split; [exact Hb |].
  unfold calculate_button_clicked.
  apply String.eqb_neq in Hmake, Hmodel. rewrite Hmake, Hmodel. cbn [orb].
  rewrite Hb. cbn [display_cost_breakdown app].
  split; [reflexivity |]. split; [reflexivity |].
  split; [reflexivity |]. split; [exact Hadv | reflexivity].
Qed.

Lemma eligible_vehicle_gets_the_full_page_witness :
  exists (b : CostBreakdown) (v : breakdown_view) (c : market_comparison)
         (t : summary_table) (savings percentage : Q),
    calculate_total_costs 15000 1200 300 (2026 - 2022) 2.0 = (Some b, None)
    /\ calculate_button_clicked 2026 "TOYOTA" "HARRIER" 2022
         2.0 15000 1200 300
       = (Rendered tt,
          [StSuccess;
           VehicleSummary "TOYOTA" "HARRIER" 2022 2.0 (2026 - 2022);
           CostBreakdownShown v; MarketComparisonShown c; DownloadOffered t])
    /\ display_cost_breakdown (Some b) = Rendered v
    /\ import_total_cost c = grand_total_kes b
    /\ advice c = RecommendImport savings percentage
    /\ summary_grand_total t = grand_total_kes b.
Proof.
  apply (eligible_vehicle_gets_the_full_page
           2026 "TOYOTA" "HARRIER" 2022 2.0 15000 1200 300).
  - discriminate.
  - discriminate.
  - lia.
  - vm_compute; discriminate.
  - vm_compute; discriminate.
  - vm_compute; discriminate.
Defined.

(** * Properties of [estimate_car_value] *)

(** Every base value, the default included, is between 18000 and 45000. *)
Lemma base_value_range (make : string) :
  (18000 <= default 20000 (base_values !! upper make) <= 45000)%Z.
Proof.
  destruct (base_values !! upper make) as [v |] eqn:E; cbn; [| lia].
  unfold base_values in E.
  repeat (rewrite lookup_insert_Some in E;
          destruct E as [[_ <-] | [_ E]]; [lia |]).
  rewrite lookup_empty in E. discriminate E.
Qed.

(** A year of depreciation more never raises the factor. *)
Lemma depreciation_le_1 (k : Z) : (0 <= k)%Z -> (1 - 0.15) ^ k <= 1.
Proof.
  revert k. apply natlike_ind.
  - vm_compute. discriminate.
  - intros k Hk IH. unfold Z.succ.
    rewrite Qpower_plus by (vm_compute; discriminate).
    assert (Hq : (1 - 0.15) ^ 1 == 0.85) by reflexivity.
    assert (Hpos : 0 < (1 - 0.15) ^ k) by (apply Qpower_0_lt; reflexivity).
    rewrite Hq. nra.
Qed.

Lemma depreciation_antitone (n m : Z) :
  (n <= m)%Z -> (1 - 0.15) ^ m <= (1 - 0.15) ^ n.
Proof.
  intros Hle. replace m with (n + (m - n))%Z by lia.
  rewrite Qpower_plus by (vm_compute; discriminate).
  assert (H1 : (1 - 0.15) ^ (m - n) <= 1) by (apply depreciation_le_1; lia).
  assert (Hpos : 0 < (1 - 0.15) ^ n) by (apply Qpower_0_lt; reflexivity).
  nra.
Qed.

(** X9.  The estimate is never below 5000, and for a year of manufacture that
    is not in the future it is never above 45000, the highest base value. *)
Theorem estimate_is_between_floor_and_highest_base
  (current_year year : Z) (make model : string) :
  5000 <= estimate_car_value current_year year make model
  /\ ((year <= current_year)%Z ->
      estimate_car_value current_year year make model <= 45000).
Proof.
  unfold estimate_car_value.
  pose proof (base_value_range make) as [Hlo Hhi].
  set (base := default 20000%Z (base_values !! upper make)) in *.
  set (factor := (1 - 0.15) ^ (current_year - year)).
  destruct (Qle_bool 5000 (inject_Z base * factor)) eqn:E.
  - apply Qle_bool_iff in E. split; [exact E |].
    intros Hyear.
    assert (H1 : factor <= 1) by (apply depreciation_le_1; lia).
    assert (Hpos : 0 < factor) by (apply Qpower_0_lt; reflexivity).
    assert (Hb : inject_Z base <= 45000)
      by (change 45000 with (inject_Z 45000); rewrite <- Zle_Qle; exact Hhi).
    assert (Hb0 : 0 <= inject_Z base)
      by (change 0 with (inject_Z 0); rewrite <- Zle_Qle; lia).
    nra.
  - split; [apply Qle_refl |]. intros _. vm_compute. discriminate.
Qed.

Lemma estimate_is_between_floor_and_highest_base_witness :
  estimate_car_value 2026 2019 "Toyota" "Harrier" <= 45000.
Proof.
  apply (proj2 (estimate_is_between_floor_and_highest_base
                  2026 2019 "Toyota" "Harrier")).
  lia.
Defined.

(** X10.  For one make, a newer year of manufacture never gives a lower
    estimate. *)
Theorem estimate_is_monotone_in_the_year
  (current_year year1 year2 : Z) (make model : string) :
  (year1 <= year2)%Z ->
  estimate_car_value current_year year1 make model
  <= estimate_car_value current_year year2 make model.
Proof.
  intros Hle. unfold estimate_car_value.
  pose proof (base_value_range make) as [Hlo Hhi].
  set (base := default 20000%Z (base_values !! upper make)) in *.
  assert (Hf : (1 - 0.15) ^ (current_year - year1)
               <= (1 - 0.15) ^ (current_year - year2))
    by (apply depreciation_antitone; lia).
  assert (Hb0 : 0 <= inject_Z base)
    by (change 0 with (inject_Z 0); rewrite <- Zle_Qle; lia).
  set (f1 := (1 - 0.15) ^ (current_year - year1)) in *.
  set (f2 := (1 - 0.15) ^ (current_year - year2)) in *.
  destruct (Qle_bool 5000 (inject_Z base * f1)) eqn:E1;
    destruct (Qle_bool 5000 (inject_Z base * f2)) eqn:E2;
    try apply Qle_bool_iff in E1; try apply Qle_bool_iff in E2;
    try (apply not_true_iff_false in E1; rewrite Qle_bool_iff in E1);
    try (apply not_true_iff_false in E2; rewrite Qle_bool_iff in E2);
    nra.
Qed.

Lemma estimate_is_monotone_in_the_year_witness :
  estimate_car_value 2026 2016 "BMW" "X5"
  <= estimate_car_value 2026 2020 "BMW" "X5".
Proof.
  apply (estimate_is_monotone_in_the_year 2026 2016 2020 "BMW" "X5"). lia.
Defined.

(** X11.  From an age of 14 years on the estimate is the floor of 5000,
    whatever the make. *)
Theorem estimate_is_the_floor_from_14_years_on
  (current_year year : Z) (make model : string) :
  (14 <= current_year - year)%Z ->
  estimate_car_value current_year year make model = 5000.
Proof.
  intros Hage. unfold estimate_car_value.
  pose proof (base_value_range make) as [Hlo Hhi].
  set (base := default 20000%Z (base_values !! upper make)) in *.
  assert (Hf : (1 - 0.15) ^ (current_year - year) <= (1 - 0.15) ^ 14)
    by (apply depreciation_antitone; exact Hage).
  assert (H14 : (1 - 0.15) ^ 14 < 1 # 9) by reflexivity.
  assert (Hpos : 0 < (1 - 0.15) ^ (current_year - year))
    by (apply Qpower_0_lt; reflexivity).
  assert (Hb : inject_Z base <= 45000)
    by (change 45000 with (inject_Z 45000); rewrite <- Zle_Qle; exact Hhi).
  assert (Hb0 : 0 <= inject_Z base)
    by (change 0 with (inject_Z 0); rewrite <- Zle_Qle; lia).
  set (f := (1 - 0.15) ^ (current_year - year)) in *.
  set (f14 := (1 - 0.15) ^ 14) in *.
  destruct (Qle_bool 5000 (inject_Z base * f)) eqn:E; [| reflexivity].
  apply Qle_bool_iff in E. exfalso. nra.
Qed.

Lemma estimate_is_the_floor_from_14_years_on_witness :
  estimate_car_value 2026 2012 "MERCEDES" "E200" = 5000.
Proof.
  apply (estimate_is_the_floor_from_14_years_on 2026 2012 "MERCEDES" "E200").
  lia.
Defined.

(** * Properties of [extract_engine_size] *)

Lemma string_app_empty_l (r : string) : "" ++ r = r.
Proof. reflexivity. Qed.



Lemma search_engine_size_none (s : string) :
  search_engine_size s = None <-> all_chars non_digit s = true.
Proof.
  induction s as [| c s IH].
  - cbn. tauto.
  - cbn [search_engine_size all_chars]. unfold match_engine_size, non_digit.
    cbn [span]. destruct (is_digit c) eqn:Hc; cbn [negb andb].
    + destruct (span is_digit s) as [taken rest].
      destruct rest as [| [[] [] [] [] [] [] [] []] rest];
        split; discriminate.
    + exact IH.
Qed.

Lemma int_of_digits_from_nonneg (s : string) (acc : Z) :
  (0 <= acc)%Z -> (0 <= int_of_digits_from acc s)%Z.
Proof.
  revert acc. induction s as [| c s IH]; intros acc Hacc; cbn.
  - exact Hacc.
  - apply IH. unfold digit_value. lia.
Qed.

Lemma float_of_decimal_nonneg (int_part frac_part : string) :
  0 <= float_of_decimal int_part frac_part.
Proof.
  unfold float_of_decimal.
  assert (Hi : (0 <= int_of_digits int_part)%Z)
    by (apply int_of_digits_from_nonneg; lia).
  assert (Hf : (0 <= int_of_digits frac_part)%Z)
    by (apply int_of_digits_from_nonneg; lia).
  assert (Hp : (0 < 10 ^ Z.of_nat (String.length frac_part))%Z)
    by (apply Z.pow_pos_nonneg; lia).
  rewrite Zle_Qle in Hi, Hf. rewrite Zlt_Qlt in Hp.
  change (inject_Z 0) with 0 in *.
  assert (H : 0 <= inject_Z (int_of_digits frac_part)
                   / inject_Z (10 ^ Z.of_nat (String.length frac_part))).
  { apply Qle_shift_div_l; [exact Hp |]. lra. }
  lra.
Qed.

(** X12.  [extract_engine_size] returns [None] exactly for a text without a
    digit, and otherwise a number that is not negative: a sign in front of
    the digits is not read. *)
Theorem extract_engine_size_none_or_nonnegative (model_str : string) :
  (extract_engine_size model_str = None
   <-> all_chars non_digit model_str = true)
  /\ (forall size : Q, extract_engine_size model_str = Some size -> 0 <= size).
Proof.
  unfold extract_engine_size. split.
  - rewrite <- search_engine_size_none.
    destruct (search_engine_size model_str) as [[i f] |]; split;
      solve [discriminate | reflexivity].
  - intros size.
    destruct (search_engine_size model_str) as [[i f] |]; [| discriminate].
    intros [= <-]. apply float_of_decimal_nonneg.
Qed.

Lemma extract_engine_size_none_or_nonnegative_witness :
  extract_engine_size "GLE -12.50x" = Some 12.50 /\ 0 <= 12.50.
Proof.
  split; [reflexivity |].
  apply (proj2 (extract_engine_size_none_or_nonnegative "GLE -12.50x") 12.50).
  reflexivity.
Defined.



(** * Properties of [scrape_car_details] *)

(** A match found by the search is a match at the start of some suffix. *)
Lemma search_leftmost_some (match_here : string -> option string)
  (s m : string) :
  search_leftmost match_here s = Some m ->
  exists l r : string, s = l ++ r /\ match_here r = Some m.
Proof.
  induction s as [| c s IH]; cbn [search_leftmost].
  - destruct (match_here "") as [m' |] eqn:E; [| discriminate].
    intros [= <-]. exists "", "". split; [reflexivity | exact E].
  - destruct (match_here (String c s)) as [m' |] eqn:E.
    + intros [= <-]. exists "", (String c s). split; [reflexivity | exact E].
    + intros H. destruct (IH H) as (l & r & -> & Hr).
      exists (String c l), r. split; [reflexivity | exact Hr].
Qed.

Lemma digit_value_range (c : ascii) :
  is_digit c = true -> (0 <= digit_value c <= 9)%Z.
Proof.
  unfold is_digit, digit_value. rewrite andb_true_iff.
  intros [H1 H2]. apply Nat.leb_le in H1, H2. lia.
Qed.

Lemma match_year_range (s m : string) :
  match_year s = Some m -> (2010 <= int_of_digits m <= 2029)%Z.
Proof.
  destruct s as [| c1 [| c2 [| c3 [| c4 s]]]]; try discriminate.
  unfold match_year.
  destruct (Ascii.eqb_spec c1 "2") as [-> |]; [| discriminate].
  destruct (Ascii.eqb_spec c2 "0") as [-> |]; [| discriminate].
  cbn [andb].
  destruct (is_digit c4) eqn:H4; [| rewrite andb_false_r; discriminate].
  apply digit_value_range in H4.
  destruct (Ascii.eqb_spec c3 "1") as [-> |];
    [| destruct (Ascii.eqb_spec c3 "2") as [-> |]; [| discriminate]];
    cbn [orb andb]; intros [= <-];
    unfold int_of_digits; cbn [int_of_digits_from];
    change (digit_value "2") with 2%Z; change (digit_value "0") with 0%Z;
    change (digit_value "1") with 1%Z; lia.
Qed.

Lemma first_price_nonneg (patterns : list (string -> option string))
  (text : string) (price : Z) :
  first_price patterns text = Some price -> (0 <= price)%Z.
Proof.
  induction patterns as [| p patterns IH]; cbn [first_price]; [discriminate |].
  destruct (search_leftmost p text) as [m |]; [| exact IH].
  destruct (String.eqb (keep_digits m) ""); [exact IH |].
  intros [= <-]. apply int_of_digits_from_nonneg. lia.
Qed.

(** X14.  Whatever the page says, a year found by [scrape_car_details] is
    between 2010 and 2029 (the pattern lets 2026 to 2029 through, beyond the
    2025 of its comment), and a price found is not negative. *)
Theorem scraped_year_and_price_ranges (page_text : string) :
  (forall year : Z,
     car_year (scrape_car_details page_text) = Some year ->
     (2010 <= year <= 2029)%Z)
  /\ (forall price : Z,
        car_fob_value (scrape_car_details page_text) = Some price ->
        (0 <= price)%Z).
Proof.
  unfold scrape_car_details; cbn [car_year car_fob_value]. split.
  - intros year.
    destruct (search_leftmost match_year (lower page_text)) as [m |] eqn:E;
      [| discriminate].
    intros [= <-].
    apply search_leftmost_some in E as (l & r & _ & Hr).
    exact (match_year_range r m Hr).
  - intros price. apply first_price_nonneg.
Qed.

Lemma scraped_year_and_price_ranges_witness :
  car_year (scrape_car_details "Stock 120299, USD: 9,800") = Some 2029%Z
  /\ (2010 <= 2029 <= 2029)%Z /\ (0 <= 9800)%Z.
Proof.
  split; [reflexivity |]. split.
  - apply (proj1 (scraped_year_and_price_ranges
                    "Stock 120299, USD: 9,800") 2029%Z).
    reflexivity.
  - apply (proj2 (scraped_year_and_price_ranges
                    "Stock 120299, USD: 9,800") 9800%Z).
    reflexivity.
Defined.








Lemma keep_digits_nonempty (s : string) :
  keep_digits s <> "" -> s <> "".
Proof. intros H ->. now apply H. Qed.



(** * Further properties of the search *)

(** The mask of one column, row by row. *)
Lemma column_mask (q : string) (i : nat) (rows : list (list cell)) :
  map (cell_contains q) (str_upper (column_at i rows))
  = map (fun r => cell_contains q
                    match nth i r Missing with
                    | Text s => Text (upper s)
                    | Missing => Missing
                    end) rows.
Proof. unfold str_upper, column_at. now rewrite !map_map. Qed.

Lemma filter_twice {A : Type} (f g : A -> bool) (l : list A) :
  List.filter g (List.filter f l) = List.filter (fun x => f x && g x) l.
Proof.
  induction l as [| x l IH]; cbn; [reflexivity |].
  destruct (f x); cbn; [| exact IH].
  destruct (g x); now rewrite IH.
Qed.




Lemma upper_lower_char (c : ascii) : upper_char (lower_char c) = upper_char c.
Proof. destruct c as [[] [] [] [] [] [] [] []]; reflexivity. Qed.

Lemma upper_lower (s : string) : upper (lower s) = upper s.
Proof.
  induction s as [| c s IH]; cbn; [reflexivity |].
  now rewrite upper_lower_char, IH.
Qed.

(** X17.  The case of the queries does not matter to [search_crsp]: the
    queries in lower case and in upper case give the result of the queries
    as typed, whatever that result is. *)
Theorem search_crsp_ignores_the_case_of_the_queries
  (make model : string) (crsp_data : option DataFrame) :
  search_crsp (lower make) (lower model) crsp_data
  = search_crsp make model crsp_data
  /\ search_crsp (upper make) (upper model) crsp_data
     = search_crsp make model crsp_data.
Proof.
  unfold search_crsp. destruct crsp_data as [df |]; [| split; reflexivity].
  now rewrite !upper_lower, !upper_idempotent.
Qed.




(** X19.  With both boxes of the side bar filled in and queries that have no
    white space at their ends, the side bar finds what [search_crsp] finds:
    it ends as [search_crsp] does, and when that returns rows it reports
    their number and shows the first 50 of them, or reports no match when
    there is none. *)
Theorem sidebar_search_agrees_with_search_crsp
  (search_make search_model : string) (crsp_data : DataFrame) :
  search_make <> "" -> search_model <> "" ->
  strip (upper search_make) = upper search_make ->
  strip (upper search_model) = upper search_model ->
  sidebar_search search_make search_model crsp_data
  = bind (search_crsp search_make search_model (Some crsp_data))
      (fun rows => Returns (matches_view rows)).
Proof.
  intros Hmake Hmodel Hsmake Hsmodel.
  unfold sidebar_search, search_crsp, filter_frame, getitem_str, str_contains.
  apply String.eqb_neq in Hmake, Hmodel. rewrite Hmake, Hmodel. cbn [negb orb].
  rewrite Hsmake, Hsmodel.
  destruct (positions "MAKE" (columns crsp_data) 0) as [| i [| ? ?]];
    cbn [bind]; [reflexivity | | reflexivity].
  destruct (in_fragment (upper search_make)); cbn [bind]; [| reflexivity].
  cbn [columns records].
  destruct (positions "MODEL" (columns crsp_data) 0) as [| j [| ? ?]];
    cbn [bind]; [reflexivity | | reflexivity].
  destruct (in_fragment (upper search_model)); cbn [bind]; [| reflexivity].
  cbn [records].
  rewrite !column_mask, mask_and_map, !boolean_index_map, filter_twice.
  unfold matches_view.
  now destruct (0 <? List.length _)%nat.
Qed.

Lemma sidebar_search_agrees_with_search_crsp_witness :
  sidebar_search "toy" "hi" example_table
  = bind (search_crsp "toy" "hi" (Some example_table))
      (fun rows => Returns (matches_view rows)).
Proof.
  apply (sidebar_search_agrees_with_search_crsp "toy" "hi" example_table).
  - discriminate.
  - discriminate.
  - reflexivity.
  - reflexivity.
Defined.

(** * Further properties of [load_crsp_file] *)

Lemma upper_char_keeps_classes (c : ascii) :
  is_space (upper_char c) = is_space c
  /\ Ascii.eqb (upper_char c) " " = Ascii.eqb c " "
  /\ non_quote (upper_char c) = non_quote c.
Proof. destruct c as [[] [] [] [] [] [] [] []]; repeat split. Qed.

Lemma collapse_ws_single_spaced (s : string) (after_space : bool) :
  single_spaced after_space (upper (collapse_ws after_space s)) = true.
Proof.
  revert after_space. induction s as [| c s IH]; intros b; [reflexivity |].
  cbn [collapse_ws]. destruct (is_space c) eqn:Hc.
  - destruct b; [apply IH |].
    cbn [upper]. change (upper_char " ") with " "%char.
    cbn [single_spaced]. change (is_space " ") with true.
    cbv iota. rewrite IH. reflexivity.
  - cbn [upper single_spaced].
    rewrite (proj1 (upper_char_keeps_classes c)), Hc. apply IH.
Qed.




Lemma normalize_header_single_spaced (h : string) :
  single_spaced false (normalize_header h) = true.
Proof. unfold normalize_header. apply collapse_ws_single_spaced. Qed.

(** X20.  [load_crsp_file] accepts a frame exactly when some normalised
    header contains MAKE and some normalised header contains MODEL without
    containing NUMBER; containing is enough, the header need not be equal to
    MAKE or MODEL. *)
Theorem load_crsp_file_accepts_by_containment (df : DataFrame) :
  load_crsp_file df <> None
  <-> (exists h, In h (columns df)
                 /\ is_substring "MAKE" (normalize_header h))
      /\ (exists h, In h (columns df)
                    /\ is_substring "MODEL" (normalize_header h)
                    /\ ~ is_substring "NUMBER" (normalize_header h)).
Proof. apply load_crsp_file_accepts. Qed.




(** X23.  No column of an accepted frame is labelled MODEL NUMBER with two
    spaces, the second label that [main] looks up in a match (line 716):
    the normalisation has collapsed the spaces. *)
Theorem double_spaced_label_is_never_a_column (df df' : DataFrame) :
  load_crsp_file df = Some df' ->
  ~ In "MODEL  NUMBER" (columns df').
Proof.
  intros H Hin. apply load_crsp_file_keeps_normalized_headers in H.
  rewrite H in Hin. cbn [columns] in Hin.
  apply in_map_iff in Hin as (h & Hh & _).
  pose proof (normalize_header_single_spaced h) as Hs.
  rewrite Hh in Hs. discriminate Hs.
Qed.

Lemma double_spaced_label_is_never_a_column_witness :
  ~ In "MODEL  NUMBER" (columns (mkDataFrame ["MAKE"; "MODEL"; "MODEL NUMBER"] [])).
Proof.
  apply (double_spaced_label_is_never_a_column
           (mkDataFrame ["Make"; "Model"; "Model  Number"] [])).
  reflexivity.
Defined.

(** * White space around the queries *)

Lemma lstrip_all_space (pad : string) :
  all_chars is_space pad = true -> lstrip pad = "".
Proof.
  induction pad as [| c pad IH]; cbn; [reflexivity |].
  rewrite andb_true_iff. intros [-> Hpad]. now apply IH.
Qed.

Lemma lstrip_pad (pad s : string) :
  all_chars is_space pad = true -> lstrip (pad ++ s) = lstrip s.
Proof.
  induction pad as [| c pad IH]; [reflexivity |]. cbn [all_chars].
  rewrite andb_true_iff. intros [Hc Hpad].
  rewrite string_app_cons. cbn [lstrip]. rewrite Hc. now apply IH.
Qed.

Lemma rstrip_all_space (pad : string) :
  all_chars is_space pad = true -> rstrip pad = "".
Proof.
  induction pad as [| c pad IH]; cbn; [reflexivity |].
  rewrite andb_true_iff. intros [Hc Hpad]. now rewrite IH, Hc.
Qed.

Lemma rstrip_pad (s pad : string) :
  all_chars is_space pad = true -> rstrip (s ++ pad) = rstrip s.
Proof.
  intros Hpad. induction s as [| c s IH].
  - rewrite string_app_empty_l. now apply rstrip_all_space.
  - rewrite string_app_cons. cbn [rstrip]. now rewrite IH.
Qed.

Lemma strip_pad (l s r : string) :
  all_chars is_space l = true -> all_chars is_space r = true ->
  strip (l ++ s ++ r) = strip s.
Proof.
  intros Hl Hr. unfold strip. rewrite lstrip_pad by exact Hl.
  induction s as [| c s IH].
  - rewrite string_app_empty_l. now rewrite lstrip_all_space.
  - rewrite string_app_cons. cbn [lstrip].
    destruct (is_space c); [exact IH |].
    rewrite <- string_app_cons. now apply rstrip_pad.
Qed.

Lemma upper_app (a b : string) : upper (a ++ b) = upper a ++ upper b.
Proof.
  induction a as [| c a IH]; [reflexivity |].
  rewrite string_app_cons. cbn [upper]. now rewrite IH, string_app_cons.
Qed.

Lemma upper_all_space (pad : string) :
  all_chars is_space (upper pad) = all_chars is_space pad.
Proof.
  induction pad as [| c pad IH]; cbn; [reflexivity |].
  now rewrite (proj1 (upper_char_keeps_classes c)), IH.
Qed.

(** X24.  White space typed before or after a query does not matter to
    [search_crsp]: padding the make and the model query with white space on
    either side gives the result of the queries themselves. *)
Theorem search_crsp_trims_the_queries
  (l1 make r1 l2 model r2 : string) (crsp_data : option DataFrame) :
  all_chars is_space l1 = true -> all_chars is_space r1 = true ->
  all_chars is_space l2 = true -> all_chars is_space r2 = true ->
  search_crsp (l1 ++ make ++ r1) (l2 ++ model ++ r2) crsp_data
  = search_crsp make model crsp_data.
Proof.
  intros Hl1 Hr1 Hl2 Hr2. unfold search_crsp.
  destruct crsp_data as [df |]; [| reflexivity].
  rewrite !upper_app.
  rewrite (strip_pad (upper l1) (upper make) (upper r1))
    by (now rewrite upper_all_space).
  rewrite (strip_pad (upper l2) (upper model) (upper r2))
    by (now rewrite upper_all_space).
  reflexivity.
Qed.

Lemma search_crsp_trims_the_queries_witness :
  search_crsp ("  " ++ "toy" ++ " ") ("" ++ "har" ++ "  ") (Some example_table)
  = search_crsp "toy" "har" (Some example_table).
Proof.
  apply (search_crsp_trims_the_queries
           "  " "toy" " " "" "har" "  " (Some example_table));
    reflexivity.
Defined.
